(** * ATMEGA32U4 CTC timer/counter: the blink firmware of [main.c]

    A shallow embedding of the firmware: the I/O registers it touches and
    the shared variable [count_ms] form a record; every C statement is a
    function on that record, with the width of each store written out.
    The interrupt handler and one pass of the [while(1)] body are the two
    atomic steps of the system; schedules are lists of such steps.  Since
    interrupts are enabled while the loop runs, a second kind of schedule
    lets the handler run between the two [if]s of a pass as well. *)

From Stdlib Require Import ZArith List Bool Lia.
Import ListNotations.

Local Open Scope Z_scope.

(** ** Bit names and constants *)

(** Bit positions of <avr/io.h>.  The header is not part of the sources;
    the positions are the ones [main.c] documents in its register layout
    comments: TCCR1B bit [7:0] is {ICNC1,ICES1,-,WGM13,WGM12,CS12,CS11,CS10},
    TIMSK1 bit [7:0] is {-,-,ICIE1,-,OCIE1C,OCIE1B,OCIE1A,TOIE1}, TCCR1A
    bit [7:0] is {COM1A1,...,WGM11,WGM10}, and PD6 is pin 6 of port D. *)
Module Bits.
Definition PD6 : Z := 6.
Definition CS10 : Z := 0.
Definition CS11 : Z := 1.
Definition CS12 : Z := 2.
Definition WGM12 : Z := 3.
Definition WGM13 : Z := 4.
Definition WGM10 : Z := 0.
Definition WGM11 : Z := 1.
Definition TOIE1 : Z := 0.
Definition OCIE1A : Z := 1.
Definition OCIE1B : Z := 2.
Definition OCIE1C : Z := 3.
Definition ICIE1 : Z := 5.
(** Global interrupt enable, bit 7 of SREG, set by [sei()]. *)
Definition SREG_I : Z := 7.
End Bits.
Import Bits.

(** [#define CPU_8MHz 0x01] *)
Definition CPU_8MHz : Z := 1.

(** The C expression [(1 << n)]. *)
Definition bit (n : Z) : Z := Z.shiftl 1 n.

(** A store to an 8-bit register keeps the low 8 bits; a store to a 16-bit
    register or to an [unsigned int] (16 bits on AVR) keeps the low 16. *)
Definition store8 (v : Z) : Z := v mod 256.
Definition store16 (v : Z) : Z := v mod 65536.

(** ** Machine state *)

Record state : Type := mkState {
  CLKPR : Z;
  SREG : Z;
  DDRD : Z;
  PORTD : Z;
  TCCR1A : Z;
  TCCR1B : Z;
  TIMSK1 : Z;
  OCR1A : Z;
  TCNT1 : Z;
  count_ms : Z
}.

Definition set_CLKPR (v : Z) (s : state) : state :=
  mkState v (SREG s) (DDRD s) (PORTD s) (TCCR1A s) (TCCR1B s)
          (TIMSK1 s) (OCR1A s) (TCNT1 s) (count_ms s).
Definition set_SREG (v : Z) (s : state) : state :=
  mkState (CLKPR s) v (DDRD s) (PORTD s) (TCCR1A s) (TCCR1B s)
          (TIMSK1 s) (OCR1A s) (TCNT1 s) (count_ms s).
Definition set_DDRD (v : Z) (s : state) : state :=
  mkState (CLKPR s) (SREG s) v (PORTD s) (TCCR1A s) (TCCR1B s)
          (TIMSK1 s) (OCR1A s) (TCNT1 s) (count_ms s).
Definition set_PORTD (v : Z) (s : state) : state :=
  mkState (CLKPR s) (SREG s) (DDRD s) v (TCCR1A s) (TCCR1B s)
          (TIMSK1 s) (OCR1A s) (TCNT1 s) (count_ms s).
Definition set_TCCR1A (v : Z) (s : state) : state :=
  mkState (CLKPR s) (SREG s) (DDRD s) (PORTD s) v (TCCR1B s)
          (TIMSK1 s) (OCR1A s) (TCNT1 s) (count_ms s).
Definition set_TCCR1B (v : Z) (s : state) : state :=
  mkState (CLKPR s) (SREG s) (DDRD s) (PORTD s) (TCCR1A s) v
          (TIMSK1 s) (OCR1A s) (TCNT1 s) (count_ms s).
Definition set_TIMSK1 (v : Z) (s : state) : state :=
  mkState (CLKPR s) (SREG s) (DDRD s) (PORTD s) (TCCR1A s) (TCCR1B s)
          v (OCR1A s) (TCNT1 s) (count_ms s).
Definition set_OCR1A (v : Z) (s : state) : state :=
  mkState (CLKPR s) (SREG s) (DDRD s) (PORTD s) (TCCR1A s) (TCCR1B s)
          (TIMSK1 s) v (TCNT1 s) (count_ms s).
Definition set_TCNT1 (v : Z) (s : state) : state :=
  mkState (CLKPR s) (SREG s) (DDRD s) (PORTD s) (TCCR1A s) (TCCR1B s)
          (TIMSK1 s) (OCR1A s) v (count_ms s).
Definition set_count_ms (v : Z) (s : state) : state :=
  mkState (CLKPR s) (SREG s) (DDRD s) (PORTD s) (TCCR1A s) (TCCR1B s)
          (TIMSK1 s) (OCR1A s) (TCNT1 s) v.

(** Every register within its width. *)
Definition wf (s : state) : Prop :=
  0 <= CLKPR s < 256 /\ 0 <= SREG s < 256 /\ 0 <= DDRD s < 256 /\
  0 <= PORTD s < 256 /\ 0 <= TCCR1A s < 256 /\ 0 <= TCCR1B s < 256 /\
  0 <= TIMSK1 s < 256 /\ 0 <= OCR1A s < 65536 /\ 0 <= TCNT1 s < 65536 /\
  0 <= count_ms s < 65536.

(** The state at power-on: I/O registers at their reset value and
    [volatile unsigned int count_ms = 0]. *)
Definition power_on : state := mkState 0 0 0 0 0 0 0 0 0 0.

(** The state the blink loop is specified from: counter zero and the
    whole of PORTD zero (pin low). *)
Definition initial (s : state) : Prop := count_ms s = 0 /\ PORTD s = 0.

(** The level of the LED pin: bit PD6 of PORTD. *)
Definition pin (s : state) : bool := Z.testbit (PORTD s) PD6.

(** ** The program *)

(** [ISR(TIMER1_COMPA_vect){ count_ms ++; }] *)
Definition ISR (s : state) : state :=
  set_count_ms (store16 (count_ms s + 1)) s.

(** [#define CPU_PRESCALE(n) (CLKPR = 0x80, CLKPR = (n))] *)
Definition CPU_PRESCALE (n : Z) (s : state) : state :=
  set_CLKPR (store8 n) (set_CLKPR (store8 128) s).

(** [void Counter_init (void)] *)
Definition Counter_init (s : state) : state :=
  let s1 := set_TCCR1A (store8 (Z.lor (TCCR1A s) 0)) s in
  let s2 := set_TCCR1B (store8 (Z.lor (TCCR1B s1) (Z.lor (bit CS11) (bit WGM12)))) s1 in
  let s3 := set_TIMSK1 (store8 (Z.lor (TIMSK1 s2) (bit OCIE1A))) s2 in
  let s4 := set_OCR1A (store16 1000) s3 in
  set_TCNT1 (store16 0) s4.

(** [sei()] *)
Definition sei (s : state) : state :=
  set_SREG (store8 (Z.lor (SREG s) (bit SREG_I))) s.

(** The straight-line part of [main], up to the [while]. *)
Definition main_setup (s : state) : state :=
  let s1 := CPU_PRESCALE CPU_8MHz s in
  let s2 := Counter_init s1 in
  let s3 := sei s2 in
  set_DDRD (store8 (Z.lor (DDRD s3) (bit PD6))) s3.

(** The two [if] statements of the loop body, each with its guard. *)
Definition assert_guard (s : state) : bool :=
  (count_ms s =? 999) && (PORTD s =? 0).

Definition assert_branch (s : state) : state :=
  let s1 := set_PORTD (store8 (Z.lor (PORTD s) (bit PD6))) s in
  set_count_ms 0 s1.

Definition clear_guard (s : state) : bool := count_ms s =? 999.

Definition clear_branch (s : state) : state :=
  let s1 := set_PORTD (store8 (Z.land (PORTD s) (Z.lnot (bit PD6)))) s in
  set_count_ms 0 s1.

Definition first_if (s : state) : state :=
  if assert_guard s then assert_branch s else s.

Definition second_if (s : state) : state :=
  if clear_guard s then clear_branch s else s.

(** One pass through the body of [while(1)]. *)
Definition loop_body (s : state) : state := second_if (first_if s).

(** [while(1) { ... }] run for at most [fuel] passes with no interrupt:
    [Some s] when the loop was left in state [s], [None] while it is
    still running. *)
Definition while_guard (s : state) : bool := negb (1 =? 0).

Fixpoint main_loop (fuel : nat) (s : state) : option state :=
  match fuel with
  | O => None
  | S f => if while_guard s then main_loop f (loop_body s) else Some s
  end.

(** The loop body in the words of its description: an [if], an
    [else if], and nothing otherwise. *)
Definition loop_body_described (s : state) : state :=
  if (count_ms s =? 999) && (PORTD s =? 0)
  then set_count_ms 0 (set_PORTD (Z.setbit (PORTD s) PD6) s)
  else if count_ms s =? 999
       then set_count_ms 0 (set_PORTD (Z.clearbit (PORTD s) PD6) s)
       else s.

(** ** The system: handler and loop as atomic steps *)

(** [Tick] is one run of the compare-match handler, [Poll] one pass
    through the loop body.  The handler is delivered between passes. *)
Inductive event : Type := Tick | Poll.

Definition step (e : event) (s : state) : state :=
  match e with
  | Tick => ISR s
  | Poll => loop_body s
  end.

Fixpoint run (evs : list event) (s : state) : state :=
  match evs with
  | [] => s
  | e :: rest => run rest (step e s)
  end.

(** All states a schedule passes through, the first one included. *)
Fixpoint trace (evs : list event) (s : state) : list state :=
  match evs with
  | [] => [s]
  | e :: rest => s :: trace rest (step e s)
  end.

(** Number of handler runs in a schedule. *)
Fixpoint ticks (evs : list event) : Z :=
  match evs with
  | [] => 0
  | Tick :: rest => 1 + ticks rest
  | Poll :: rest => ticks rest
  end.

(** Number of steps of a schedule across which the pin level changes. *)
Fixpoint toggles (evs : list event) (s : state) : Z :=
  match evs with
  | [] => 0
  | e :: rest =>
      (if Bool.eqb (pin (step e s)) (pin s) then 0 else 1)
      + toggles rest (step e s)
  end.

(** No missed reset: a loop pass occurs between consecutive handler runs. *)
Fixpoint polled_between (evs : list event) : bool :=
  match evs with
  | [] => true
  | Poll :: rest => polled_between rest
  | Tick :: rest =>
      match rest with
      | Tick :: _ => false
      | _ => polled_between rest
      end
  end.

(** Every handler run is directly followed by a loop pass, so the
    schedule also ends with the counter checked. *)
Fixpoint interleaved (evs : list event) : bool :=
  match evs with
  | [] => true
  | Poll :: rest => interleaved rest
  | Tick :: rest =>
      match rest with
      | Poll :: _ => interleaved rest
      | _ => false
      end
  end.

(** The schedule of [n] handler runs, each followed by one loop pass. *)
Fixpoint tick_poll (n : nat) : list event :=
  match n with
  | O => []
  | S k => Tick :: Poll :: tick_poll k
  end.

(** ** Timer/Counter1 *)

(** Clock-select field CS12:CS10 of TCCR1B and the divisor it selects,
    the table in the comment of [Counter_init]: 001 = CPU/1, 010 = CPU/8,
    011 = CPU/64, 100 = CPU/256, 101 = CPU/1024; 000 stops the clock and
    110, 111 take an external clock. *)
Definition clock_select (s : state) : Z := Z.land (TCCR1B s) 7.

Definition timer_divisor (cs : Z) : option Z :=
  match cs with
  | 1 => Some 1
  | 2 => Some 8
  | 3 => Some 64
  | 4 => Some 256
  | 5 => Some 1024
  | _ => None
  end.

(** Waveform generation mode WGM13:WGM10, two bits in each control
    register. *)
Definition waveform_mode (s : state) : Z :=
  Z.lor (Z.shiftl (Z.land (Z.shiftr (TCCR1B s) WGM12) 3) 2)
        (Z.land (TCCR1A s) 3).

(** The compare value the source documents for a wanted rate:
    [OCR1A = (CPU_clock speed/TCCR_clock speed)-1]. *)
Definition documented_OCR1A (timer_hz rate_hz : Z) : Z :=
  timer_hz / rate_hz - 1.

(** Modelled from the spec: the timer hardware in CTC mode, which is
    the chip and not code.  The running count advances by one per
    timer clock; the compare-match event is the count being equal to
    the threshold register, and it resets the count to zero and
    raises the interrupt.  The header comment of [main.c] says the
    same: TCNT1 counts until the compare matches OCR1A, then the
    interrupt happens and TCNT1 is reset. *)
Definition compare_match (s : state) : bool := TCNT1 s =? OCR1A s.

Definition timer_clock (s : state) : state :=
  if compare_match s
  then set_TCNT1 0 s
  else set_TCNT1 (store16 (TCNT1 s + 1)) s.

(** Compare-match events in [n] timer clocks. *)
Fixpoint compare_matches (n : nat) (s : state) : Z :=
  match n with
  | O => 0
  | S k => (if compare_match s then 1 else 0) + compare_matches k (timer_clock s)
  end.

(** Which of the two branches of a pass are executed: the first on the
    state the pass starts in, the second on the state the first [if]
    leaves. *)
Definition first_taken (s : state) : bool := assert_guard s.
Definition second_taken (s : state) : bool := clear_guard (first_if s).

(** Some bit of PORTD other than PD6 is set. *)
Definition other_bit_set (s : state) : bool :=
  existsb (fun i => Z.testbit (PORTD s) i) [0; 1; 2; 3; 4; 5; 7].

(** PORTD holds nothing but the LED bit. *)
Definition led_only (s : state) : Prop := PORTD s = 0 \/ PORTD s = bit PD6.

(** Does a schedule begin with a handler run? *)
Definition starts_with_tick (evs : list event) : bool :=
  match evs with
  | Tick :: _ => true
  | _ => false
  end.

(** One second of the timer clock: the 8 MHz CPU clock divided by the
    selected divisor, in timer clocks. *)
Definition F_CPU : Z := 8000000.

Definition timer_clocks_per_second (s : state) : option Z :=
  match timer_divisor (clock_select s) with
  | Some d => Some (F_CPU / d)
  | None => None
  end.

(** A pass during which the handler runs between the two [if]s. *)
Definition pass_with_tick_inside (s : state) : state :=
  second_if (ISR (first_if s)).

(** ** Statement-level steps *)

(** [main] calls [sei()] before the loop and both [if]s read the
    volatile [count_ms] afresh, so the handler can run before either
    [if].  A point is one handler run or one of the two [if]s. *)
Inductive point : Type := Handler | FirstIf | SecondIf.

Definition point_step (p : point) (s : state) : state :=
  match p with
  | Handler => ISR s
  | FirstIf => first_if s
  | SecondIf => second_if s
  end.

Fixpoint run_points (ps : list point) (s : state) : state :=
  match ps with
  | [] => s
  | p :: rest => run_points rest (point_step p s)
  end.

(** Number of handler runs among the points. *)
Fixpoint handler_runs (ps : list point) : Z :=
  match ps with
  | [] => 0
  | Handler :: rest => 1 + handler_runs rest
  | _ :: rest => handler_runs rest
  end.

(** Number of points across which the pin level changes. *)
Fixpoint point_toggles (ps : list point) (s : state) : Z :=
  match ps with
  | [] => 0
  | p :: rest =>
      (if Bool.eqb (pin (point_step p s)) (pin s) then 0 else 1)
      + point_toggles rest (point_step p s)
  end.

(** The order the loop imposes: first [if], second [if], first [if],
    and so on, ending after a whole pass; handler runs anywhere.
    [at_first] tells that the next statement of the loop is the first
    [if]. *)
Fixpoint program_order (at_first : bool) (ps : list point) : bool :=
  match ps with
  | [] => at_first
  | Handler :: rest => program_order at_first rest
  | FirstIf :: rest => at_first && program_order false rest
  | SecondIf :: rest => negb at_first && program_order true rest
  end.

(** A schedule of atomic steps, point by point. *)
Fixpoint points_of (evs : list event) : list point :=
  match evs with
  | [] => []
  | Tick :: rest => Handler :: points_of rest
  | Poll :: rest => FirstIf :: SecondIf :: points_of rest
  end.

(** A pass with the handler run before it, and one with the handler
    run between its two [if]s. *)
Definition early_pass : list point := [Handler; FirstIf; SecondIf].
Definition late_pass : list point := [FirstIf; Handler; SecondIf].

Fixpoint early_passes (n : nat) : list point :=
  match n with
  | O => []
  | S k => early_pass ++ early_passes k
  end.

(** 999 handler runs, one per pass, the last of them between the two
    [if]s of its pass. *)
Definition late_cycle : list point := early_passes 998 ++ late_pass.

Fixpoint late_cycles (n : nat) : list point :=
  match n with
  | O => []
  | S k => late_cycle ++ late_cycles k
  end.

(** Unfolds the statements of the program down to record fields. *)
Ltac unfold_program :=
  unfold loop_body, second_if, first_if, assert_guard, clear_guard,
         assert_branch, clear_branch, ISR, Counter_init, CPU_PRESCALE, sei,
         main_setup in *;
  cbn [CLKPR SREG DDRD PORTD TCCR1A TCCR1B TIMSK1 OCR1A TCNT1 count_ms
       set_CLKPR set_SREG set_DDRD set_PORTD set_TCCR1A set_TCCR1B
       set_TIMSK1 set_OCR1A set_TCNT1 set_count_ms] in *.

(** ** Bit-level facts about the two PORTD updates *)

Section PortBits.

Lemma bit_testbit (n i : Z) :
  0 <= n -> Z.testbit (bit n) i = (n =? i).
Proof.
  intros Hn. unfold bit. rewrite Z.shiftl_1_l.
  apply Z.pow2_bits_eqb. exact Hn.
Qed.

Lemma store8_testbit_low (v i : Z) :
  0 <= i < 8 -> Z.testbit (store8 v) i = Z.testbit v i.
Proof.
  intros Hi. unfold store8. change 256 with (2 ^ 8).
  apply Z.mod_pow2_bits_low. lia.
Qed.

Lemma store8_range (v : Z) : 0 <= store8 v < 256.
Proof. unfold store8. apply Z.mod_pos_bound. lia. Qed.

Lemma byte_testbit_high (v i : Z) :
  0 <= v < 256 -> 8 <= i -> Z.testbit v i = false.
Proof.
  intros Hv Hi. rewrite <- (Z.mod_small v (2 ^ 8)) by (change (2 ^ 8) with 256; lia).
  apply Z.mod_pow2_bits_high. lia.
Qed.

Lemma store8_byte (v : Z) : 0 <= v < 256 -> store8 v = v.
Proof. intros Hv. unfold store8. apply Z.mod_small. exact Hv. Qed.

(** [PORTD |= (1<<PD6)] sets bit 6 and keeps the other seven. *)
Lemma set_PD6_bits (v i : Z) :
  0 <= i < 8 ->
  Z.testbit (store8 (Z.lor v (bit PD6))) i = (Z.testbit v i || (i =? PD6)).
Proof.
  intros Hi. rewrite store8_testbit_low by exact Hi.
  rewrite Z.lor_spec, bit_testbit by (unfold PD6; lia).
  rewrite (Z.eqb_sym PD6 i). reflexivity.
Qed.

(** [PORTD &= ~(1<<PD6)] clears bit 6 and keeps the other seven. *)
Lemma clear_PD6_bits (v i : Z) :
  0 <= i < 8 ->
  Z.testbit (store8 (Z.land v (Z.lnot (bit PD6)))) i
  = (Z.testbit v i && negb (i =? PD6)).
Proof.
  intros Hi. rewrite store8_testbit_low by exact Hi.
  rewrite Z.land_spec, Z.lnot_spec by lia.
  rewrite bit_testbit by (unfold PD6; lia).
  rewrite (Z.eqb_sym PD6 i). reflexivity.
Qed.

(** On a byte the masked value needs no truncation. *)
Lemma clear_PD6_byte (v : Z) :
  0 <= v < 256 ->
  store8 (Z.land v (Z.lnot (bit PD6))) = Z.clearbit v PD6.
Proof.
  intros Hv.
  assert (Hc : Z.clearbit v PD6 = Z.land v (Z.lnot (bit PD6))).
  { unfold Z.clearbit, bit. apply Z.ldiff_land. }
  rewrite Hc. apply store8_byte.
  assert (Hnn : 0 <= Z.land v (Z.lnot (bit PD6))) by (apply Z.land_nonneg; lia).
  split; [exact Hnn|].
  destruct (Z_lt_le_dec (Z.land v (Z.lnot (bit PD6))) 256) as [Hlt|Hge]; [exact Hlt|].
  exfalso.
  assert (Hpos : 0 < Z.land v (Z.lnot (bit PD6))) by lia.
  pose proof (Z.bit_log2 _ Hpos) as Hb.
  assert (Hlog : 8 <= Z.log2 (Z.land v (Z.lnot (bit PD6)))).
  { apply (Z.log2_le_pow2 _ 8); [exact Hpos | change (2 ^ 8) with 256; exact Hge]. }
  rewrite Z.land_spec, (byte_testbit_high v _ Hv Hlog) in Hb.
  discriminate Hb.
Qed.

End PortBits.

(** ** One pass of the loop body *)

Section LoopBody.

Variable s : state.

Lemma loop_body_idle : count_ms s <> 999 -> loop_body s = s.
Proof.
  intros Hc. apply Z.eqb_neq in Hc. unfold_program.
  rewrite Hc. cbn. rewrite Hc. reflexivity.
Qed.

Lemma loop_body_assert :
  count_ms s = 999 -> PORTD s = 0 -> loop_body s = assert_branch s.
Proof.
  intros Hc Hp. unfold_program. rewrite Hc, Hp. reflexivity.
Qed.

Lemma loop_body_clear :
  count_ms s = 999 -> PORTD s <> 0 -> loop_body s = clear_branch s.
Proof.
  intros Hc Hp. apply Z.eqb_neq in Hp. unfold_program.
  rewrite Hc, Hp. cbn. rewrite Hc. reflexivity.
Qed.

(** The three cases of a pass. *)
Lemma loop_body_cases :
  (count_ms s <> 999 /\ loop_body s = s) \/
  (count_ms s = 999 /\ PORTD s = 0 /\ loop_body s = assert_branch s) \/
  (count_ms s = 999 /\ PORTD s <> 0 /\ loop_body s = clear_branch s).
Proof.
  destruct (Z.eq_dec (count_ms s) 999) as [Hc|Hc].
  - destruct (Z.eq_dec (PORTD s) 0) as [Hp|Hp].
    + right; left. auto using loop_body_assert.
    + right; right. auto using loop_body_clear.
  - left. auto using loop_body_idle.
Qed.

(** After a pass the counter is never left at 999. *)
Lemma loop_body_count :
  count_ms (loop_body s) = if count_ms s =? 999 then 0 else count_ms s.
Proof.
  destruct loop_body_cases as [[Hc ->]|[(Hc & _ & ->)|(Hc & _ & ->)]].
  - apply Z.eqb_neq in Hc. rewrite Hc. reflexivity.
  - rewrite Hc. reflexivity.
  - rewrite Hc. reflexivity.
Qed.

(** A pass leaves the seven other bits of PORTD alone. *)
Lemma loop_body_other_bits (i : Z) :
  0 <= i < 8 -> i <> PD6 ->
  Z.testbit (PORTD (loop_body s)) i = Z.testbit (PORTD s) i.
Proof.
  intros Hi Hne. apply Z.eqb_neq in Hne.
  destruct loop_body_cases as [[_ ->]|[(_ & _ & ->)|(_ & _ & ->)]].
  - reflexivity.
  - unfold_program. rewrite set_PD6_bits, Hne by exact Hi.
    apply orb_false_r.
  - unfold_program. rewrite clear_PD6_bits, Hne by exact Hi.
    apply andb_true_r.
Qed.

(** Only the clearing branch can lower the pin, only the asserting
    branch can raise it. *)
Lemma assert_branch_pin : pin (assert_branch s) = true.
Proof.
  unfold pin. unfold_program.
  rewrite set_PD6_bits by (unfold PD6; lia).
  rewrite Z.eqb_refl. apply orb_true_r.
Qed.

Lemma clear_branch_pin : pin (clear_branch s) = false.
Proof.
  unfold pin. unfold_program.
  rewrite clear_PD6_bits by (unfold PD6; lia).
  rewrite Z.eqb_refl. apply andb_false_r.
Qed.

End LoopBody.

(** ** Steps and schedules *)

Lemma store16_range (v : Z) : 0 <= store16 v < 65536.
Proof. unfold store16. apply Z.mod_pos_bound. lia. Qed.

(** Registers stay within their width. *)
Lemma wf_step (e : event) (s : state) : wf s -> wf (step e s).
Proof.
  unfold wf. intros H. destruct e; cbn [step].
  - unfold_program. pose proof (store16_range (count_ms s + 1)). intuition.
  - destruct (loop_body_cases s) as [[_ ->]|[(_ & _ & ->)|(_ & _ & ->)]].
    + exact H.
    + unfold_program.
      pose proof (store8_range (Z.lor (PORTD s) (bit PD6))). intuition lia.
    + unfold_program.
      pose proof (store8_range (Z.land (PORTD s) (Z.lnot (bit PD6)))).
      intuition lia.
Qed.

Lemma wf_main_setup : wf (main_setup power_on).
Proof. unfold wf. cbn. lia. Qed.

Lemma ISR_PORTD (s : state) : PORTD (ISR s) = PORTD s.
Proof. reflexivity. Qed.

Lemma ISR_pin (s : state) : pin (ISR s) = pin s.
Proof. reflexivity. Qed.

Lemma ISR_count_small (s : state) :
  0 <= count_ms s < 65535 -> count_ms (ISR s) = count_ms s + 1.
Proof.
  intros Hc. unfold_program. unfold store16. apply Z.mod_small. lia.
Qed.

Lemma led_only_step (e : event) (s : state) : led_only s -> led_only (step e s).
Proof.
  intros Hs. destruct e; cbn [step].
  - exact Hs.
  - destruct (loop_body_cases s) as [[_ ->]|[(_ & Hp & ->)|(_ & Hp & ->)]].
    + exact Hs.
    + right. unfold_program. rewrite Hp. reflexivity.
    + left. destruct Hs as [Hs|Hs]; [contradiction|].
      unfold_program. rewrite Hs. reflexivity.
Qed.

Lemma led_only_run (evs : list event) :
  forall s, led_only s -> led_only (run evs s).
Proof.
  induction evs as [|e rest IH]; intros s Hs; cbn [run].
  - exact Hs.
  - apply IH, led_only_step, Hs.
Qed.

Lemma initial_led_only (s : state) : initial s -> led_only s.
Proof. intros [_ Hp]. left. exact Hp. Qed.

(** With nothing but the LED bit in PORTD, a pass at 999 inverts the pin. *)
Lemma loop_body_toggles (s : state) :
  led_only s -> count_ms s = 999 ->
  pin (loop_body s) = negb (pin s) /\
  PORTD (loop_body s) = bit PD6 - PORTD s /\
  count_ms (loop_body s) = 0.
Proof.
  intros [Hp|Hp] Hc.
  - rewrite (loop_body_assert s Hc Hp). unfold pin. unfold_program.
    rewrite Hp. repeat split; reflexivity.
  - assert (Hnz : PORTD s <> 0) by (rewrite Hp; discriminate).
    rewrite (loop_body_clear s Hc Hnz). unfold pin. unfold_program.
    rewrite Hp. repeat split; reflexivity.
Qed.

(** Induction over schedules in which a pass follows every handler run. *)
Lemma interleaved_ind (P : list event -> Prop) :
  P [] ->
  (forall rest, interleaved rest = true -> P rest -> P (Poll :: rest)) ->
  (forall rest, interleaved rest = true -> P rest -> P (Tick :: Poll :: rest)) ->
  forall evs, interleaved evs = true -> P evs.
Proof.
  intros Hnil Hpoll Htick.
  assert (H : forall n evs, (length evs <= n)%nat -> interleaved evs = true -> P evs).
  { induction n as [|n IH]; intros evs Hlen Hev.
    - destruct evs; [exact Hnil | cbn in Hlen; lia].
    - destruct evs as [|[|] rest]; [exact Hnil | |].
      + destruct rest as [|[|] rest']; cbn in Hev; try discriminate Hev.
        apply Htick; [exact Hev|]. apply IH; [cbn in Hlen; lia | exact Hev].
      + cbn in Hev. apply Hpoll; [exact Hev|].
        apply IH; [cbn in Hlen; lia | exact Hev]. }
  intros evs. apply (H (length evs)). apply Nat.le_refl.
Qed.

Lemma ticks_nonneg (evs : list event) : 0 <= ticks evs.
Proof. induction evs as [|[|] rest IH]; cbn [ticks]; lia. Qed.

(** Where an interleaved schedule leads: the counter is the number of
    handler runs modulo 999, and each completed group of 999 inverted
    the pin once. *)
Lemma interleaved_run (evs : list event) :
  interleaved evs = true ->
  forall s, led_only s -> 0 <= count_ms s <= 998 ->
    let q := (count_ms s + ticks evs) / 999 in
    count_ms (run evs s) = (count_ms s + ticks evs) mod 999 /\
    PORTD (run evs s) = (if Z.odd q then bit PD6 - PORTD s else PORTD s) /\
    toggles evs s = q.
Proof.
  intros Hev. pattern evs. apply interleaved_ind; [| | | exact Hev]; clear evs Hev.
  - intros s _ Hc. cbn [run ticks toggles].
    rewrite Z.add_0_r, Z.mod_small, Z.div_small by lia. cbn. auto.
  - intros rest _ IH s Hled Hc. cbn [run ticks toggles step].
    rewrite (loop_body_idle s) by lia.
    rewrite Bool.eqb_reflx. apply IH; assumption.
  - intros rest _ IH s Hled Hc. cbn [run ticks toggles step].
    rewrite ISR_pin, Bool.eqb_reflx.
    assert (Hi : count_ms (ISR s) = count_ms s + 1) by (apply ISR_count_small; lia).
    assert (Hledi : led_only (ISR s)) by exact Hled.
    destruct (Z.eq_dec (count_ms s) 998) as [H998|H998].
    + assert (Hc999 : count_ms (ISR s) = 999) by lia.
      destruct (loop_body_toggles (ISR s) Hledi Hc999) as (Hpin & Hport & Hcnt).
      rewrite ISR_PORTD in Hport.
      assert (Hled' : led_only (loop_body (ISR s))).
      { apply (led_only_step Poll), Hledi. }
      specialize (IH (loop_body (ISR s)) Hled').
      rewrite Hcnt, Hport in IH. cbn zeta in IH.
      destruct IH as (IHc & IHp & IHt); [lia|].
      rewrite Hpin, ISR_pin, IHc, IHp, IHt.
      replace (count_ms s + (1 + ticks rest)) with (0 + ticks rest + 1 * 999) by lia.
      rewrite Z.mod_add, Z.div_add by lia.
      set (k := (0 + ticks rest) / 999) in *.
      rewrite Z.odd_add. change (Z.odd 1) with true.
      split; [reflexivity|]. split.
      * destruct (Z.odd k); cbn [xorb]; lia.
      * destruct (pin s); cbn [negb Bool.eqb]; lia.
    + assert (Hidle : loop_body (ISR s) = ISR s) by (apply loop_body_idle; lia).
      rewrite Hidle, Bool.eqb_reflx.
      specialize (IH (ISR s) Hledi). rewrite Hi, ISR_PORTD in IH. cbn zeta in IH.
      destruct IH as (IHc & IHp & IHt); [lia|].
      replace (count_ms s + (1 + ticks rest)) with (count_ms s + 1 + ticks rest) by lia.
      rewrite IHt. cbn zeta. auto.
Qed.

(** ** The interrupt handler *)

(** C8.  One run of the compare-match handler adds one to [count_ms],
    wrapping at the 16 bits of an [unsigned int], and changes nothing
    else: the pin, PORTD, DDRD and every configuration register keep
    their value. *)
Theorem ISR_increments_only (s : state) :
  count_ms (ISR s) = (count_ms s + 1) mod 2 ^ 16 /\
  (0 <= count_ms s < 65535 -> count_ms (ISR s) = count_ms s + 1) /\
  (count_ms s = 65535 -> count_ms (ISR s) = 0) /\
  pin (ISR s) = pin s /\
  PORTD (ISR s) = PORTD s /\ DDRD (ISR s) = DDRD s /\
  CLKPR (ISR s) = CLKPR s /\ SREG (ISR s) = SREG s /\
  TCCR1A (ISR s) = TCCR1A s /\ TCCR1B (ISR s) = TCCR1B s /\
  TIMSK1 (ISR s) = TIMSK1 s /\ OCR1A (ISR s) = OCR1A s /\
  TCNT1 (ISR s) = TCNT1 s.
Proof.
  split; [reflexivity|].
  split; [apply ISR_count_small|].
  split; [|repeat split].
  intros Hmax. unfold_program. rewrite Hmax. reflexivity.
Qed.

Lemma ISR_increments_only_witness :
  count_ms (ISR power_on) = count_ms power_on + 1.
Proof.
  apply (proj1 (proj2 (ISR_increments_only power_on))).
  cbn. lia.
Defined.

(** ** The loop body against its description *)

(** C5.  On an 8-bit PORTD one pass of the loop body is the described
    two-branch statement: at 999 with the whole of PORTD zero it sets
    PD6 and zeroes the counter; otherwise at 999 it clears PD6 and
    zeroes the counter; away from 999 it changes nothing. *)
Theorem loop_body_two_branch (s : state) (Hbyte : 0 <= PORTD s < 256) :
  loop_body s = loop_body_described s.
Proof.
  unfold loop_body_described.
  destruct (loop_body_cases s) as [[Hc ->]|[(Hc & Hp & ->)|(Hc & Hp & ->)]].
  - apply Z.eqb_neq in Hc. rewrite Hc. reflexivity.
  - rewrite Hc, Hp. unfold_program. rewrite Hp. reflexivity.
  - rewrite Hc. apply Z.eqb_neq in Hp. rewrite Hp. cbn [andb Z.eqb].
    unfold_program. rewrite (clear_PD6_byte _ Hbyte). reflexivity.
Qed.

Lemma loop_body_two_branch_witness :
  loop_body (mkState 1 128 64 64 0 10 2 1000 17 999)
  = loop_body_described (mkState 1 128 64 64 0 10 2 1000 17 999).
Proof.
  apply loop_body_two_branch. cbn. lia.
Defined.

(** C9.  A pass of the loop body writes nothing but bit PD6 of PORTD and
    the counter: the seven other bits of PORTD, DDRD, the timer
    registers TCCR1A, TCCR1B, TIMSK1, OCR1A, TCNT1, and CLKPR and SREG
    are as before. *)
Theorem loop_body_frame (s : state) (i : Z) (Hi : 0 <= i < 8) (Hne : i <> PD6) :
  Z.testbit (PORTD (loop_body s)) i = Z.testbit (PORTD s) i /\
  DDRD (loop_body s) = DDRD s /\
  TCCR1A (loop_body s) = TCCR1A s /\ TCCR1B (loop_body s) = TCCR1B s /\
  TIMSK1 (loop_body s) = TIMSK1 s /\ OCR1A (loop_body s) = OCR1A s /\
  TCNT1 (loop_body s) = TCNT1 s /\
  CLKPR (loop_body s) = CLKPR s /\ SREG (loop_body s) = SREG s.
Proof.
  split; [apply loop_body_other_bits; assumption|].
  destruct (loop_body_cases s) as [[_ ->]|[(_ & _ & ->)|(_ & _ & ->)]];
    repeat split.
Qed.

Lemma loop_body_frame_witness :
  Z.testbit (PORTD (loop_body (mkState 1 128 64 129 0 10 2 1000 17 999))) 7
  = true.
Proof.
  apply (proj1 (loop_body_frame (mkState 1 128 64 129 0 10 2 1000 17 999) 7
                                ltac:(lia) ltac:(discriminate))).
Defined.

(** ** The timer configuration *)

(** C3.  [Counter_init] ORs CS11 and WGM12 into TCCR1B and OCIE1A into
    TIMSK1, leaves TCCR1A as it is, stores 1000 in OCR1A and 0 in TCNT1,
    and touches nothing else.  Called, as in [main], with the three
    control registers at their reset value zero, the result is waveform
    mode 0100 (CTC on OCR1A), clock select 010 (CPU clock divided by 8)
    and an interrupt mask holding OCIE1A alone. *)
Theorem Counter_init_configuration (s : state) :
  let s' := Counter_init s in
  (forall i, 0 <= i < 8 ->
     Z.testbit (TCCR1A s') i = Z.testbit (TCCR1A s) i /\
     Z.testbit (TCCR1B s') i
       = (Z.testbit (TCCR1B s) i || (i =? CS11) || (i =? WGM12)) /\
     Z.testbit (TIMSK1 s') i = (Z.testbit (TIMSK1 s) i || (i =? OCIE1A))) /\
  OCR1A s' = 1000 /\ TCNT1 s' = 0 /\
  CLKPR s' = CLKPR s /\ SREG s' = SREG s /\ DDRD s' = DDRD s /\
  PORTD s' = PORTD s /\ count_ms s' = count_ms s /\
  (TCCR1A s = 0 -> TCCR1B s = 0 -> TIMSK1 s = 0 ->
     TCCR1A s' = 0 /\ TCCR1B s' = Z.lor (bit CS11) (bit WGM12) /\
     TIMSK1 s' = bit OCIE1A /\
     waveform_mode s' = 4 /\ clock_select s' = 2 /\
     timer_divisor (clock_select s') = Some 8).
Proof.
  cbn zeta. split.
  { intros i Hi. unfold_program. rewrite !store8_testbit_low by exact Hi.
    rewrite !Z.lor_spec, !bit_testbit by (unfold CS11, WGM12, OCIE1A; lia).
    rewrite Z.bits_0, orb_false_r.
    rewrite (Z.eqb_sym CS11 i), (Z.eqb_sym WGM12 i), (Z.eqb_sym OCIE1A i).
    rewrite orb_assoc. auto. }
  repeat (split; [reflexivity|]).
  intros Ha Hb Hm. unfold waveform_mode, clock_select. unfold_program.
  rewrite Ha, Hb, Hm. repeat split; reflexivity.
Qed.

Lemma Counter_init_configuration_witness :
  waveform_mode (Counter_init (CPU_PRESCALE CPU_8MHz power_on)) = 4 /\
  clock_select (Counter_init (CPU_PRESCALE CPU_8MHz power_on)) = 2.
Proof.
  destruct (Counter_init_configuration (CPU_PRESCALE CPU_8MHz power_on))
    as (_ & _ & _ & _ & _ & _ & _ & _ & H).
  destruct H as (_ & _ & _ & Hw & Hc & _); [reflexivity | reflexivity | reflexivity |].
  split; [exact Hw | exact Hc].
Defined.

(** ** Toggling at 999 *)

Lemma branches_exclusive (s : state) :
  first_taken s && second_taken s = false.
Proof.
  unfold first_taken, second_taken, first_if.
  destruct (assert_guard s) eqn:Hg; [|reflexivity].
  unfold clear_guard, assert_branch. reflexivity.
Qed.

Lemma branches_at_999 (s : state) :
  count_ms s = 999 -> xorb (first_taken s) (second_taken s) = true.
Proof.
  intros Hc. unfold first_taken, second_taken, first_if, assert_guard.
  rewrite Hc. cbn [Z.eqb Pos.eqb andb].
  destruct (PORTD s =? 0); [reflexivity|].
  unfold clear_guard. rewrite Hc. reflexivity.
Qed.

(** X12.  With the handler delivered between passes: in every state
    reached from the initial state by handler runs and whole passes in
    any order, a pass that finds the counter at 999 inverts the pin and
    zeroes the counter, and executes exactly one of its two branches;
    in no state at all does a pass execute both. *)
Theorem pass_at_999_toggles_once
  (s0 : state) (evs : list event)
  (Hinit : initial s0) (H999 : count_ms (run evs s0) = 999) :
  let s := run evs s0 in
  pin (loop_body s) = negb (pin s) /\
  count_ms (loop_body s) = 0 /\
  xorb (first_taken s) (second_taken s) = true /\
  (forall s', first_taken s' && second_taken s' = false).
Proof.
  cbn zeta.
  assert (Hled : led_only (run evs s0)).
  { apply led_only_run, initial_led_only, Hinit. }
  destruct (loop_body_toggles _ Hled H999) as (Hpin & _ & Hcnt).
  split; [exact Hpin|]. split; [exact Hcnt|].
  split; [apply branches_at_999, H999 | apply branches_exclusive].
Qed.

Lemma pass_at_999_toggles_once_witness :
  pin (loop_body (run (repeat Tick 999) power_on))
  = negb (pin (run (repeat Tick 999) power_on)).
Proof.
  apply (pass_at_999_toggles_once power_on (repeat Tick 999)).
  - split; reflexivity.
  - vm_compute. reflexivity.
Defined.

(** ** Another bit of PORTD set *)

Lemma other_bit_set_spec (s : state) :
  other_bit_set s = true <->
  exists i, 0 <= i < 8 /\ i <> PD6 /\ Z.testbit (PORTD s) i = true.
Proof.
  unfold other_bit_set. rewrite existsb_exists. split.
  - intros (i & Hin & Hb). exists i.
    cbn in Hin. unfold PD6. intuition lia.
  - intros (i & Hi & Hne & Hb). exists i. split; [|exact Hb].
    unfold PD6 in Hne. cbn.
    assert (i = 0 \/ i = 1 \/ i = 2 \/ i = 3 \/ i = 4 \/ i = 5 \/ i = 7) by lia.
    intuition auto.
Qed.

Lemma other_bit_set_nonzero (s : state) :
  other_bit_set s = true -> PORTD s <> 0.
Proof.
  intros H Hz. apply other_bit_set_spec in H.
  destruct H as (i & _ & _ & Hb). rewrite Hz, Z.bits_0 in Hb. discriminate Hb.
Qed.

Lemma other_bit_set_step (e : event) (s : state) :
  other_bit_set (step e s) = other_bit_set s.
Proof.
  destruct e; cbn [step]; [reflexivity|].
  unfold other_bit_set. cbn [existsb].
  rewrite !loop_body_other_bits by (unfold PD6; lia). reflexivity.
Qed.

Lemma blocked_pass_pin (s : state) :
  other_bit_set s = true ->
  pin (loop_body s) = pin s && negb (clear_guard s).
Proof.
  intros Hother. pose proof (other_bit_set_nonzero s Hother) as Hnz.
  unfold clear_guard.
  destruct (Z.eq_dec (count_ms s) 999) as [Hc|Hc].
  - rewrite (loop_body_clear s Hc Hnz), clear_branch_pin, Hc.
    symmetry. apply andb_false_r.
  - rewrite (loop_body_idle s Hc). apply Z.eqb_neq in Hc. rewrite Hc.
    symmetry. apply andb_true_r.
Qed.

Lemma blocked_step_low (e : event) (s : state) :
  other_bit_set s = true -> pin s = false -> pin (step e s) = false.
Proof.
  intros Hother Hlow. destruct e; cbn [step].
  - exact Hlow.
  - rewrite (blocked_pass_pin s Hother), Hlow. reflexivity.
Qed.

Lemma blocked_run_low (evs : list event) :
  forall s, other_bit_set s = true -> pin s = false ->
    other_bit_set (run evs s) = true /\ pin (run evs s) = false /\
    toggles evs s = 0.
Proof.
  induction evs as [|e rest IH]; intros s Hother Hlow; cbn [run toggles].
  - auto.
  - pose proof (blocked_step_low e s Hother Hlow) as Hstep.
    rewrite Hstep, Hlow. cbn [Bool.eqb].
    apply IH; [|exact Hstep].
    rewrite other_bit_set_step. exact Hother.
Qed.

(** C10.  While some bit of PORTD other than PD6 is set the asserting
    branch is never executed: a pass leaves the pin as it is or clears
    it, the other bit stays set, and a pin that is low stays low
    through every later handler run and loop pass. *)
Theorem other_bit_blocks_assert (s : state) (Hother : other_bit_set s = true) :
  first_taken s = false /\
  pin (loop_body s) = pin s && negb (clear_guard s) /\
  (pin (loop_body s) = true -> pin s = true) /\
  other_bit_set (loop_body s) = true /\
  (forall evs, pin s = false ->
     other_bit_set (run evs s) = true /\ pin (run evs s) = false /\
     toggles evs s = 0).
Proof.
  pose proof (other_bit_set_nonzero s Hother) as Hnz.
  split.
  { unfold first_taken, assert_guard. apply Z.eqb_neq in Hnz.
    rewrite Hnz. apply andb_false_r. }
  split; [apply blocked_pass_pin, Hother|].
  split.
  { rewrite (blocked_pass_pin s Hother). intros H.
    apply andb_true_iff in H. apply H. }
  split.
  { rewrite (other_bit_set_step Poll). exact Hother. }
  intros evs Hlow. apply blocked_run_low; assumption.
Qed.

Lemma other_bit_blocks_assert_witness :
  pin (loop_body (mkState 1 128 64 1 0 10 2 1000 17 999))
  = pin (mkState 1 128 64 1 0 10 2 1000 17 999)
    && negb (clear_guard (mkState 1 128 64 1 0 10 2 1000 17 999)).
Proof.
  apply (other_bit_blocks_assert (mkState 1 128 64 1 0 10 2 1000 17 999)).
  reflexivity.
Defined.

(** ** The counter stays below 1000 *)

Lemma run_in_trace (evs : list event) :
  forall s, In (run evs s) (trace evs s).
Proof.
  induction evs as [|e rest IH]; intros s; cbn [run trace].
  - left. reflexivity.
  - right. apply IH.
Qed.

Lemma polled_between_tail (e : event) (rest : list event) :
  polled_between (e :: rest) = true -> polled_between rest = true.
Proof.
  destruct e; cbn [polled_between]; [|auto].
  destruct rest as [|[|] rest']; [auto | discriminate | auto].
Qed.

(** The invariant: at most 999, and below 999 whenever the next step is
    a handler run. *)
Lemma polled_count_bound (evs : list event) :
  forall s, polled_between evs = true ->
    0 <= count_ms s <= 999 ->
    (starts_with_tick evs = true -> count_ms s <= 998) ->
    Forall (fun s' => 0 <= count_ms s' <= 999) (trace evs s).
Proof.
  induction evs as [|e rest IH]; intros s Hev Hc Hnext; cbn [trace].
  - constructor; [exact Hc | constructor].
  - constructor; [exact Hc|].
    apply IH; [exact (polled_between_tail _ _ Hev) | |].
    + destruct e; cbn [step].
      * rewrite ISR_count_small by (specialize (Hnext eq_refl); lia).
        specialize (Hnext eq_refl). lia.
      * rewrite loop_body_count. destruct (count_ms s =? 999); lia.
    + intros Hstart. destruct e; cbn [step].
      * destruct rest as [|[|] rest']; cbn in Hstart, Hev; discriminate.
      * rewrite loop_body_count. destruct (Z.eqb_spec (count_ms s) 999); lia.
Qed.

(** C7.  From a counter at zero, along every schedule of handler runs
    and loop passes in which a pass occurs between consecutive handler
    runs, the counter is within 0..999 in every state passed through;
    it is never 1000 or more. *)
Theorem count_ms_below_1000
  (s : state) (evs : list event)
  (Hzero : count_ms s = 0) (Hsched : polled_between evs = true) :
  Forall (fun s' => 0 <= count_ms s' <= 999) (trace evs s) /\
  0 <= count_ms (run evs s) <= 999 /\
  ~ 1000 <= count_ms (run evs s).
Proof.
  assert (Hall : Forall (fun s' => 0 <= count_ms s' <= 999) (trace evs s)).
  { apply polled_count_bound; [exact Hsched | lia | lia]. }
  split; [exact Hall|].
  rewrite Forall_forall in Hall.
  specialize (Hall _ (run_in_trace evs s)). lia.
Qed.

Lemma count_ms_below_1000_witness :
  0 <= count_ms (run (tick_poll 1500 ++ [Tick]) power_on) <= 999.
Proof.
  apply (count_ms_below_1000 power_on (tick_poll 1500 ++ [Tick])).
  - reflexivity.
  - vm_compute. reflexivity.
Defined.

(** ** Blinking *)

Lemma main_loop_running (fuel : nat) :
  forall s, main_loop fuel s = None.
Proof.
  induction fuel as [|f IH]; intros s; cbn [main_loop].
  - reflexivity.
  - unfold while_guard. cbn [Z.eqb negb]. apply IH.
Qed.

(** With the handler delivered between passes: from the initial state
    (counter zero, PORTD zero), along every schedule in which each
    handler run is followed by a whole loop pass, the pin is high
    exactly when an odd number of 999-tick cycles has been completed:
    high after the first, low after the second, and so on for every
    number of cycles.  The loop itself never exits. *)
Theorem blink_alternates
  (s : state) (evs : list event)
  (Hinit : initial s) (Hsched : interleaved evs = true) :
  count_ms (run evs s) = ticks evs mod 999 /\
  pin (run evs s) = Z.odd (ticks evs / 999) /\
  PORTD (run evs s) = (if Z.odd (ticks evs / 999) then bit PD6 else 0) /\
  (forall n, ticks evs = 999 * n ->
     pin (run evs s) = Z.odd n /\ count_ms (run evs s) = 0) /\
  (forall fuel s', main_loop fuel s' = None).
Proof.
  pose proof (initial_led_only s Hinit) as Hled.
  destruct Hinit as [Hc0 Hp0].
  destruct (interleaved_run evs Hsched s Hled) as (Hc & Hp & _); [lia|].
  rewrite Hc0, Hp0, Z.add_0_l, Z.sub_0_r in *.
  assert (Hpin : pin (run evs s) = Z.odd (ticks evs / 999)).
  { unfold pin. rewrite Hp. destruct (Z.odd (ticks evs / 999)); reflexivity. }
  split; [exact Hc|]. split; [exact Hpin|]. split; [exact Hp|].
  split; [|intros fuel s'; apply main_loop_running].
  intros n Hn. rewrite Hpin, Hc, Hn.
  rewrite (Z.mul_comm 999 n), Z.div_mul, Z.mod_mul by lia. auto.
Qed.

Lemma blink_alternates_witness :
  pin (run (tick_poll 999) power_on) = true /\
  pin (run (tick_poll 1998) power_on) = false.
Proof.
  split.
  - apply (blink_alternates power_on (tick_poll 999)).
    + split; reflexivity.
    + vm_compute. reflexivity.
  - apply (blink_alternates power_on (tick_poll 1998)).
    + split; reflexivity.
    + vm_compute. reflexivity.
Defined.

(** C4.  From the initial state, 999 handler runs interleaved with loop
    passes produce exactly one change of the pin and leave the counter
    at 0; 1998 handler runs produce exactly two, with the pin and PORTD
    back at their original value and the counter at 0. *)
Theorem tick_scenario
  (s : state) (evs : list event)
  (Hinit : initial s) (Hsched : interleaved evs = true) :
  (ticks evs = 999 ->
     toggles evs s = 1 /\ count_ms (run evs s) = 0 /\
     pin (run evs s) = negb (pin s)) /\
  (ticks evs = 1998 ->
     toggles evs s = 2 /\ count_ms (run evs s) = 0 /\
     pin (run evs s) = pin s /\ PORTD (run evs s) = PORTD s).
Proof.
  pose proof (initial_led_only s Hinit) as Hled.
  destruct Hinit as [Hc0 Hp0].
  destruct (interleaved_run evs Hsched s Hled) as (Hc & Hp & Ht); [lia|].
  rewrite Hc0, Z.add_0_l in *.
  split; intros Hn; rewrite Hn in *.
  - change (999 / 999) with 1 in *. change (999 mod 999) with 0 in Hc.
    cbn [Z.odd] in Hp.
    split; [exact Ht|]. split; [exact Hc|].
    unfold pin. rewrite Hp, Hp0. reflexivity.
  - change (1998 / 999) with 2 in *. change (1998 mod 999) with 0 in Hc.
    cbn [Z.odd] in Hp.
    split; [exact Ht|]. split; [exact Hc|].
    unfold pin. rewrite Hp. auto.
Qed.

Lemma tick_scenario_witness :
  toggles (tick_poll 999) power_on = 1 /\
  toggles (tick_poll 1998) power_on = 2.
Proof.
  split.
  - apply (proj1 (tick_scenario power_on (tick_poll 999)
                    (conj eq_refl eq_refl) ltac:(vm_compute; reflexivity))).
    vm_compute. reflexivity.
  - apply (proj2 (tick_scenario power_on (tick_poll 1998)
                    (conj eq_refl eq_refl) ltac:(vm_compute; reflexivity))).
    vm_compute. reflexivity.
Defined.

(** ** The compare-match rate *)

Lemma compare_matches_closed (n : nat) :
  forall s, 0 <= TCNT1 s <= OCR1A s -> OCR1A s < 65536 ->
    compare_matches n s = (TCNT1 s + Z.of_nat n) / (OCR1A s + 1).
Proof.
  induction n as [|n IH]; intros s Ht Ho; cbn [compare_matches].
  - rewrite Z.add_0_r. symmetry. apply Z.div_small. lia.
  - unfold timer_clock, compare_match.
    destruct (Z.eqb_spec (TCNT1 s) (OCR1A s)) as [Heq|Hne].
    + rewrite IH by (cbn; lia). cbn [TCNT1 OCR1A set_TCNT1].
      replace (TCNT1 s + Z.of_nat (S n))
        with (Z.of_nat n + 1 * (OCR1A s + 1)) by lia.
      rewrite Z.div_add by lia. rewrite Z.add_0_l. lia.
    + assert (Hs : store16 (TCNT1 s + 1) = TCNT1 s + 1).
      { unfold store16. apply Z.mod_small. lia. }
      rewrite IH by (cbn; rewrite ?Hs; lia).
      cbn [TCNT1 OCR1A set_TCNT1]. rewrite Hs.
      replace (TCNT1 s + Z.of_nat (S n)) with (TCNT1 s + 1 + Z.of_nat n) by lia.
      reflexivity.
Qed.

(** C2.  The configuration [main] sets up: divisor 8, so 1000000 timer
    clocks per second, and compare value 1000.  The compare value the
    source documents for 1 kHz is 1000000/1000 - 1 = 999.  With 1000 in
    OCR1A a compare match needs 1001 timer clocks: none within the
    first 1000, the first at clock 1001, and 999 of them, not 1000, in
    the 1000000 clocks of a second. *)
Theorem compare_rate_with_OCR1A_1000 :
  let s := main_setup power_on in
  timer_clocks_per_second s = Some 1000000 /\
  OCR1A s = 1000 /\ TCNT1 s = 0 /\
  documented_OCR1A 1000000 1000 = 999 /\
  (forall n, compare_matches n s = Z.of_nat n / 1001) /\
  compare_matches (Z.to_nat 1000) s = 0 /\
  compare_matches (Z.to_nat 1001) s = 1 /\
  compare_matches (Z.to_nat 1000000) s = 999.
Proof.
  cbn zeta.
  assert (Hall : forall n,
             compare_matches n (main_setup power_on) = Z.of_nat n / 1001).
  { intros n. rewrite compare_matches_closed by (cbn; lia). reflexivity. }
  repeat (split; [reflexivity|]).
  split; [exact Hall|].
  rewrite !Hall, !Z2Nat.id by lia.
  repeat split; reflexivity.
Qed.

(** ** A handler run inside a pass *)

(** The schedules above deliver the handler between passes.  When the
    run that brings the counter to 999 falls between the two [if]s of a
    pass instead, the second [if] alone sees 999: with the pin low the
    pass zeroes the counter and the pin stays low, where a pass after
    the same handler run raises it. *)
Remark tick_between_ifs_keeps_pin_low (s : state) :
  count_ms s = 998 -> PORTD s = 0 ->
  pin (pass_with_tick_inside s) = false /\
  count_ms (pass_with_tick_inside s) = 0 /\
  pin (loop_body (ISR s)) = true.
Proof.
  intros Hc Hp.
  assert (Hfirst : first_if s = s).
  { unfold first_if, assert_guard. rewrite Hc. reflexivity. }
  assert (Hi : count_ms (ISR s) = 999).
  { unfold ISR. cbn [count_ms set_count_ms]. rewrite Hc. reflexivity. }
  unfold pass_with_tick_inside, second_if, clear_guard.
  rewrite Hfirst, Hi. cbn match.
  split; [apply clear_branch_pin|]. split; [reflexivity|].
  rewrite (loop_body_assert (ISR s) Hi Hp). apply assert_branch_pin.
Qed.

(** ** Runs of the handler alone *)

Lemma set_count_ms_ISR (v : Z) (s : state) :
  set_count_ms v (ISR s) = set_count_ms v s.
Proof. reflexivity. Qed.

Lemma set_count_ms_same (s : state) : set_count_ms (count_ms s) s = s.
Proof. destruct s. reflexivity. Qed.

(** X5.  [n] handler runs with no loop pass in between add [n] to the
    counter modulo 2^16 and leave every register alone; 65536 of them
    bring the state back to where it was. *)
Theorem ISR_runs_add
  (s : state) (n : nat) (Hc : 0 <= count_ms s < 65536) :
  run (repeat Tick n) s
  = set_count_ms ((count_ms s + Z.of_nat n) mod 65536) s /\
  run (repeat Tick (Z.to_nat 65536)) s = s.
Proof.
  assert (Hgen : forall k t, 0 <= count_ms t < 65536 ->
            run (repeat Tick k) t
            = set_count_ms ((count_ms t + Z.of_nat k) mod 65536) t).
  { induction k as [|k IH]; intros t Ht; cbn [repeat run step].
    - rewrite Z.add_0_r, Z.mod_small by exact Ht.
      symmetry. apply set_count_ms_same.
    - rewrite IH by apply store16_range.
      rewrite set_count_ms_ISR. f_equal.
      unfold ISR, store16. cbn [count_ms set_count_ms].
      rewrite Z.add_mod_idemp_l by lia. f_equal. lia. }
  split; [apply Hgen, Hc|].
  rewrite Hgen by exact Hc. rewrite Z2Nat.id by lia.
  replace (count_ms s + 65536) with (count_ms s + 1 * 65536) by lia.
  rewrite Z.mod_add, Z.mod_small by lia. apply set_count_ms_same.
Qed.

Lemma ISR_runs_add_witness :
  run (repeat Tick 70) (mkState 1 128 64 64 0 10 2 1000 17 65500)
  = set_count_ms ((65500 + Z.of_nat 70) mod 65536)
                 (mkState 1 128 64 64 0 10 2 1000 17 65500).
Proof.
  apply (ISR_runs_add (mkState 1 128 64 64 0 10 2 1000 17 65500) 70).
  cbn. lia.
Defined.

(** ** Repeated passes *)

(** X6.  A pass directly after a pass changes nothing: the first one never
    leaves the counter at 999.  So any number of passes in a row is one
    pass. *)
Theorem loop_body_idempotent (s : state) :
  loop_body (loop_body s) = loop_body s /\
  (forall n, run (repeat Poll (S n)) s = loop_body s).
Proof.
  assert (Hidem : forall t, loop_body (loop_body t) = loop_body t).
  { intros t. apply loop_body_idle. rewrite loop_body_count.
    destruct (Z.eqb_spec (count_ms t) 999); lia. }
  split; [apply Hidem|].
  intros n. revert s. induction n as [|n IH]; intros s.
  - reflexivity.
  - change (run (repeat Poll (S (S n))) s)
      with (run (repeat Poll (S n)) (loop_body s)).
    rewrite IH. apply Hidem.
Qed.

(** ** No more than one change of the pin per 999 handler runs *)

Lemma poll_budget (s : state) :
  0 <= count_ms s ->
  999 * (if Bool.eqb (pin (loop_body s)) (pin s) then 0 else 1)
  + count_ms (loop_body s) <= count_ms s /\
  0 <= count_ms (loop_body s).
Proof.
  intros Hc.
  destruct (loop_body_cases s) as [[_ ->]|[(H9 & _ & ->)|(H9 & _ & ->)]].
  - rewrite Bool.eqb_reflx. lia.
  - cbn [assert_branch count_ms set_count_ms].
    destruct (Bool.eqb _ _); lia.
  - cbn [clear_branch count_ms set_count_ms].
    destruct (Bool.eqb _ _); lia.
Qed.

Lemma tick_budget (s : state) :
  0 <= count_ms s -> 0 <= count_ms (ISR s) <= count_ms s + 1.
Proof.
  intros Hc. unfold ISR, store16. cbn [count_ms set_count_ms].
  pose proof (Z.mod_pos_bound (count_ms s + 1) 65536 ltac:(lia)).
  pose proof (Z.mod_le (count_ms s + 1) 65536 ltac:(lia) ltac:(lia)).
  lia.
Qed.

(** X7.  Whatever the state and whatever the order of handler runs and loop
    passes, every change of the pin is paid for by 999 handler runs:
    999 times the number of changes, plus the counter left at the end,
    is at most the counter at the start plus the handler runs. *)
Theorem toggles_need_999_ticks
  (s : state) (evs : list event) (Hc : 0 <= count_ms s) :
  999 * toggles evs s + count_ms (run evs s) <= count_ms s + ticks evs /\
  0 <= toggles evs s <= (count_ms s + ticks evs) / 999.
Proof.
  assert (Hgen : forall l t, 0 <= count_ms t ->
            999 * toggles l t + count_ms (run l t) <= count_ms t + ticks l /\
            0 <= count_ms (run l t) /\ 0 <= toggles l t).
  { induction l as [|e rest IH]; intros t Ht; cbn [toggles run ticks].
    - lia.
    - destruct e; cbn [step].
      + rewrite ISR_pin, Bool.eqb_reflx.
        pose proof (tick_budget t Ht) as Hb.
        destruct (IH (ISR t)) as (H1 & H2 & H3); [lia|]. lia.
      + destruct (poll_budget t Ht) as [Hb Hnn].
        destruct (IH (loop_body t) Hnn) as (H1 & H2 & H3).
        destruct (Bool.eqb (pin (loop_body t)) (pin t)); lia. }
  destruct (Hgen evs s Hc) as (H1 & H2 & H3).
  split; [exact H1|]. split; [exact H3|].
  apply Z.div_le_lower_bound; lia.
Qed.

Lemma toggles_need_999_ticks_witness :
  0 <= toggles (repeat Tick 999 ++ [Poll; Tick; Tick; Poll]) power_on
    <= (count_ms power_on
        + ticks (repeat Tick 999 ++ [Poll; Tick; Tick; Poll])) / 999.
Proof.
  apply (toggles_need_999_ticks power_on
           (repeat Tick 999 ++ [Poll; Tick; Tick; Poll])).
  cbn. lia.
Defined.

(** ** A missed reset *)

Lemma quiet_run (evs : list event) :
  forall s, 0 <= count_ms s < 65536 ->
    (999 < count_ms s /\ count_ms s + ticks evs < 65536 + 999) \/
    count_ms s + ticks evs < 999 ->
    PORTD (run evs s) = PORTD s /\ toggles evs s = 0 /\
    count_ms (run evs s) = (count_ms s + ticks evs) mod 65536.
Proof.
  induction evs as [|e rest IH]; intros s Hc Hq; cbn [run toggles ticks].
  - rewrite Z.add_0_r, Z.mod_small by exact Hc. auto.
  - pose proof (ticks_nonneg rest) as Hnn.
    destruct e; cbn [step]; cbn [ticks] in Hq.
    + rewrite ISR_pin, Bool.eqb_reflx.
      assert (Hi : count_ms (ISR s) = (count_ms s + 1) mod 65536) by reflexivity.
      destruct (IH (ISR s)) as (Hp & Ht & Hn).
      * apply store16_range.
      * rewrite Hi. destruct (Z.eq_dec (count_ms s) 65535) as [Hmax|Hmax].
        { rewrite Hmax. change ((65535 + 1) mod 65536) with 0. right. lia. }
        { rewrite Z.mod_small by lia. lia. }
      * rewrite Hp, Ht, Hn, Hi, Z.add_mod_idemp_l by lia.
        rewrite Z.add_assoc. auto.
    + rewrite (loop_body_idle s) by lia.
      rewrite Bool.eqb_reflx. apply IH; assumption.
Qed.

(** X8.  Once the counter has passed 999 without a loop pass seeing it, the
    pin is stuck: passes do nothing and PORTD keeps its value until the
    counter has wrapped at 65536 and climbed to 999 again. *)
Theorem missed_reset_freezes_pin
  (s : state) (evs : list event)
  (Hc : 999 < count_ms s < 65536)
  (Ht : count_ms s + ticks evs < 65536 + 999) :
  PORTD (run evs s) = PORTD s /\ toggles evs s = 0 /\
  count_ms (run evs s) = (count_ms s + ticks evs) mod 65536.
Proof.
  apply quiet_run; [lia|]. left. lia.
Qed.

Lemma missed_reset_freezes_pin_witness :
  PORTD (run (tick_poll 2000) (mkState 1 128 64 64 0 10 2 1000 17 1000)) = 64.
Proof.
  apply (missed_reset_freezes_pin
           (mkState 1 128 64 64 0 10 2 1000 17 1000) (tick_poll 2000)).
  - cbn. lia.
  - vm_compute. reflexivity.
Defined.

(** ** A handler run between the two [if]s, in general *)

(** X9.  A handler run that falls between the two [if]s of a pass is as good
    as one before the pass, except at one point: with the counter at
    998 and PORTD zero the pass then clears the pin instead of setting
    it, so the pin stays low and the counter restarts. *)
Theorem tick_inside_pass
  (s : state) (Hc : 0 <= count_ms s < 65536) (H999 : count_ms s <> 999) :
  (~ (count_ms s = 998 /\ PORTD s = 0) ->
     pass_with_tick_inside s = loop_body (ISR s)) /\
  (count_ms s = 998 -> PORTD s = 0 ->
     pin (pass_with_tick_inside s) = false /\
     count_ms (pass_with_tick_inside s) = 0 /\
     pin (loop_body (ISR s)) = true).
Proof.
  split; [|apply tick_between_ifs_keeps_pin_low].
  intros Hsafe.
  assert (Hfirst : first_if s = s).
  { unfold first_if, assert_guard. apply Z.eqb_neq in H999.
    rewrite H999. reflexivity. }
  unfold pass_with_tick_inside, loop_body. rewrite Hfirst. f_equal.
  unfold first_if, assert_guard. rewrite ISR_PORTD.
  destruct (Z.eqb_spec (count_ms (ISR s)) 999) as [Hi|Hi]; [|reflexivity].
  destruct (Z.eqb_spec (PORTD s) 0) as [Hp|Hp]; [|reflexivity].
  exfalso. apply Hsafe. split; [|exact Hp].
  unfold ISR, store16 in Hi. cbn [count_ms set_count_ms] in Hi.
  destruct (Z.eq_dec (count_ms s) 65535) as [Hmax|Hmax].
  - rewrite Hmax in Hi. discriminate Hi.
  - rewrite Z.mod_small in Hi by lia. lia.
Qed.

Lemma tick_inside_pass_witness :
  pass_with_tick_inside (mkState 1 128 64 64 0 10 2 1000 17 998)
  = loop_body (ISR (mkState 1 128 64 64 0 10 2 1000 17 998)).
Proof.
  apply (tick_inside_pass (mkState 1 128 64 64 0 10 2 1000 17 998)).
  - cbn. lia.
  - cbn. lia.
  - cbn. intros [_ H]. discriminate H.
Defined.

(** ** What no schedule touches *)

Lemma step_registers (e : event) (s : state) :
  DDRD (step e s) = DDRD s /\
  TCCR1A (step e s) = TCCR1A s /\ TCCR1B (step e s) = TCCR1B s /\
  TIMSK1 (step e s) = TIMSK1 s /\ OCR1A (step e s) = OCR1A s /\
  TCNT1 (step e s) = TCNT1 s /\
  CLKPR (step e s) = CLKPR s /\ SREG (step e s) = SREG s.
Proof.
  destruct e; cbn [step].
  - repeat split.
  - destruct (loop_body_cases s) as [[_ ->]|[(_ & _ & ->)|(_ & _ & ->)]];
      repeat split.
Qed.

Lemma run_registers (evs : list event) :
  forall s,
    DDRD (run evs s) = DDRD s /\
    TCCR1A (run evs s) = TCCR1A s /\ TCCR1B (run evs s) = TCCR1B s /\
    TIMSK1 (run evs s) = TIMSK1 s /\ OCR1A (run evs s) = OCR1A s /\
    TCNT1 (run evs s) = TCNT1 s /\
    CLKPR (run evs s) = CLKPR s /\ SREG (run evs s) = SREG s.
Proof.
  induction evs as [|e rest IH]; intros s; cbn [run].
  - repeat split.
  - destruct (IH (step e s)) as (H1 & H2 & H3 & H4 & H5 & H6 & H7 & H8).
    rewrite H1, H2, H3, H4, H5, H6, H7, H8. apply step_registers.
Qed.

Lemma run_other_bits (evs : list event) (i : Z) :
  0 <= i < 8 -> i <> PD6 ->
  forall s, Z.testbit (PORTD (run evs s)) i = Z.testbit (PORTD s) i.
Proof.
  intros Hi Hne. induction evs as [|e rest IH]; intros s; cbn [run].
  - reflexivity.
  - rewrite IH. destruct e; cbn [step].
    + reflexivity.
    + apply loop_body_other_bits; assumption.
Qed.

(** X10.  Neither the handler nor the loop writes a configuration register or
    a PORTD bit other than PD6, however they are ordered: DDRD, the
    timer registers, CLKPR and SREG and the seven other bits of PORTD
    are the same after any schedule. *)
Theorem run_frame
  (s : state) (evs : list event) (i : Z) (Hi : 0 <= i < 8) (Hne : i <> PD6) :
  Z.testbit (PORTD (run evs s)) i = Z.testbit (PORTD s) i /\
  DDRD (run evs s) = DDRD s /\
  TCCR1A (run evs s) = TCCR1A s /\ TCCR1B (run evs s) = TCCR1B s /\
  TIMSK1 (run evs s) = TIMSK1 s /\ OCR1A (run evs s) = OCR1A s /\
  TCNT1 (run evs s) = TCNT1 s /\
  CLKPR (run evs s) = CLKPR s /\ SREG (run evs s) = SREG s.
Proof.
  split; [apply run_other_bits; assumption | apply run_registers].
Qed.

Lemma run_frame_witness :
  Z.testbit (PORTD (run (tick_poll 1000)
                        (mkState 1 128 64 129 0 10 2 1000 17 0))) 7 = true.
Proof.
  apply (proj1 (run_frame (mkState 1 128 64 129 0 10 2 1000 17 0)
                          (tick_poll 1000) 7 ltac:(lia) ltac:(discriminate))).
Defined.

(** ** [Counter_init] on registers that are not at reset *)

Lemma store8_land (v : Z) : store8 v = Z.land v 255.
Proof.
  unfold store8. change 256 with (2 ^ 8). change 255 with (Z.ones 8).
  symmetry. apply Z.land_ones. lia.
Qed.

Lemma store8_lor_absorb (x m : Z) :
  store8 (Z.lor (store8 (Z.lor x m)) m) = store8 (Z.lor x m).
Proof.
  rewrite !store8_land. apply Z.bits_inj'. intros n _.
  rewrite !Z.land_spec, !Z.lor_spec, !Z.land_spec, !Z.lor_spec.
  destruct (Z.testbit x n), (Z.testbit m n), (Z.testbit 255 n); reflexivity.
Qed.

(** X3.  Calling [Counter_init] a second time changes nothing. *)
Theorem Counter_init_idempotent (s : state) :
  Counter_init (Counter_init s) = Counter_init s.
Proof.
  unfold Counter_init.
  cbn [CLKPR SREG DDRD PORTD TCCR1A TCCR1B TIMSK1 OCR1A TCNT1 count_ms
       set_TCCR1A set_TCCR1B set_TIMSK1 set_OCR1A set_TCNT1].
  rewrite !store8_lor_absorb. reflexivity.
Qed.

Lemma clock_select_range (s : state) : 0 <= clock_select s < 8.
Proof.
  unfold clock_select. change 7 with (Z.ones 3).
  rewrite Z.land_ones by lia. apply Z.mod_pos_bound. reflexivity.
Qed.

Lemma Counter_init_clock_select (s : state) :
  clock_select (Counter_init s) = Z.lor (clock_select s) 2.
Proof.
  unfold clock_select, Counter_init.
  cbn [TCCR1A TCCR1B set_TCCR1A set_TCCR1B set_TIMSK1 set_OCR1A set_TCNT1].
  rewrite store8_land, <- Z.land_assoc.
  change (Z.land 255 7) with 7.
  rewrite Z.land_lor_distr_l. reflexivity.
Qed.

Lemma Counter_init_waveform_mode (s : state) :
  waveform_mode (Counter_init s) = Z.lor (waveform_mode s) 4.
Proof.
  unfold waveform_mode, Counter_init.
  cbn [TCCR1A TCCR1B set_TCCR1A set_TCCR1B set_TIMSK1 set_OCR1A set_TCNT1].
  rewrite !store8_land, Z.lor_0_r.
  rewrite <- (Z.land_assoc (TCCR1A s)). change (Z.land 255 3) with 3.
  rewrite Z.shiftr_land, <- Z.land_assoc.
  change (Z.land (Z.shiftr 255 WGM12) 3) with 3.
  rewrite Z.shiftr_lor, Z.land_lor_distr_l, Z.shiftl_lor.
  change (Z.shiftl (Z.land (Z.shiftr (Z.lor (bit CS11) (bit WGM12)) WGM12) 3) 2)
    with 4.
  rewrite <- !Z.lor_assoc. f_equal. apply Z.lor_comm.
Qed.

(** X4.  [Counter_init] only sets bits, so what it selects depends on what
    was there: the clock-select field becomes the old field OR 010 and
    the waveform mode the old mode OR 0100.  The divide-by-8 clock
    results exactly when the old clock select was 000 or 010, and CTC
    mode on OCR1A exactly when the old mode was 0000 or 0100. *)
Theorem Counter_init_keeps_set_bits (s : state) :
  clock_select (Counter_init s) = Z.lor (clock_select s) 2 /\
  waveform_mode (Counter_init s) = Z.lor (waveform_mode s) 4 /\
  (clock_select (Counter_init s) = 2 <->
     clock_select s = 0 \/ clock_select s = 2) /\
  (waveform_mode (Counter_init s) = 4 <->
     waveform_mode s = 0 \/ waveform_mode s = 4).
Proof.
  split; [apply Counter_init_clock_select|].
  split; [apply Counter_init_waveform_mode|].
  rewrite Counter_init_clock_select, Counter_init_waveform_mode.
  split.
  - pose proof (clock_select_range s) as Hr.
    assert (Hcases : clock_select s = 0 \/ clock_select s = 1 \/
                     clock_select s = 2 \/ clock_select s = 3 \/
                     clock_select s = 4 \/ clock_select s = 5 \/
                     clock_select s = 6 \/ clock_select s = 7) by lia.
    destruct Hcases as [H|[H|[H|[H|[H|[H|[H|H]]]]]]]; rewrite H; cbn;
      split; intros Hx; try discriminate Hx; try (destruct Hx as [Hx|Hx]; discriminate Hx);
      auto.
  - split.
    + intros Hx.
      destruct (Z.testbit (waveform_mode s) 2) eqn:Hb2.
      * right. apply Z.bits_inj'. intros n Hn.
        assert (Hb : Z.testbit (Z.lor (waveform_mode s) 4) n = Z.testbit 4 n)
          by (rewrite Hx; reflexivity).
        rewrite Z.lor_spec in Hb.
        destruct (Z.eq_dec n 2) as [->|Hn2]; [rewrite Hb2; reflexivity|].
        change 4 with (2 ^ 2) in *. rewrite Z.pow2_bits_false in * by lia.
        rewrite orb_false_r in Hb. exact Hb.
      * left. apply Z.bits_inj'. intros n Hn. rewrite Z.bits_0.
        assert (Hb : Z.testbit (Z.lor (waveform_mode s) 4) n = Z.testbit 4 n)
          by (rewrite Hx; reflexivity).
        rewrite Z.lor_spec in Hb.
        destruct (Z.eq_dec n 2) as [->|Hn2]; [exact Hb2|].
        change 4 with (2 ^ 2) in *. rewrite Z.pow2_bits_false in * by lia.
        rewrite orb_false_r in Hb. exact Hb.
    + intros [H|H]; rewrite H; reflexivity.
Qed.

Lemma Counter_init_keeps_set_bits_witness :
  clock_select (Counter_init (mkState 1 0 0 0 0 1 0 0 0 0)) = 3.
Proof.
  apply (proj1 (Counter_init_keeps_set_bits (mkState 1 0 0 0 0 1 0 0 0 0))).
Defined.

(** ** The start of [main] *)

(** X1.  The statements of [main] before the loop leave PORTD and the
    counter alone, so the loop starts from the state [main] was entered
    in; they end with CLKPR at [CPU_8MHz] whatever it held, OR bit PD6
    into DDRD and the interrupt flag into SREG keeping the other bits,
    and leave the timer registers as [Counter_init] alone does. *)
Theorem main_setup_effect (s : state) :
  PORTD (main_setup s) = PORTD s /\
  count_ms (main_setup s) = count_ms s /\
  (initial s -> initial (main_setup s)) /\
  CLKPR (main_setup s) = CPU_8MHz /\
  (forall i, 0 <= i < 8 ->
     Z.testbit (DDRD (main_setup s)) i = (Z.testbit (DDRD s) i || (i =? PD6)) /\
     Z.testbit (SREG (main_setup s)) i
       = (Z.testbit (SREG s) i || (i =? SREG_I))) /\
  TCCR1A (main_setup s) = TCCR1A (Counter_init s) /\
  TCCR1B (main_setup s) = TCCR1B (Counter_init s) /\
  TIMSK1 (main_setup s) = TIMSK1 (Counter_init s) /\
  OCR1A (main_setup s) = 1000 /\ TCNT1 (main_setup s) = 0.
Proof.
  split; [reflexivity|]. split; [reflexivity|].
  split; [intros H; exact H|]. split; [reflexivity|].
  split; [|repeat split].
  intros i Hi. unfold main_setup. unfold_program.
  rewrite !store8_testbit_low by exact Hi.
  rewrite !Z.lor_spec.
  rewrite (bit_testbit PD6), (bit_testbit SREG_I) by (unfold PD6, SREG_I; lia).
  rewrite (Z.eqb_sym PD6 i), (Z.eqb_sym SREG_I i). auto.
Qed.

Lemma main_setup_effect_witness :
  initial (main_setup (mkState 0 0 0 0 0 0 0 0 0 0)) /\
  Z.testbit (DDRD (main_setup (mkState 0 0 1 0 0 0 0 0 0 0))) 0 = true.
Proof.
  split.
  - apply (main_setup_effect (mkState 0 0 0 0 0 0 0 0 0 0)).
    split; reflexivity.
  - destruct (main_setup_effect (mkState 0 0 1 0 0 0 0 0 0 0))
      as (_ & _ & _ & _ & H & _).
    apply (proj1 (H 0 ltac:(lia))).
Defined.

(** X2.  Entered with the three timer control registers at zero, [main]
    sets up CTC mode on OCR1A with the clock divided by 8, compare
    value 1000, the compare-A interrupt alone enabled, interrupts on
    and PD6 an output, and no later handler run or loop pass changes
    any of it. *)
Theorem program_configuration_stable
  (s : state) (evs : list event)
  (Ha : TCCR1A s = 0) (Hb : TCCR1B s = 0) (Hm : TIMSK1 s = 0) :
  let s' := run evs (main_setup s) in
  waveform_mode s' = 4 /\ clock_select s' = 2 /\
  timer_divisor (clock_select s') = Some 8 /\
  TIMSK1 s' = bit OCIE1A /\ OCR1A s' = 1000 /\
  Z.testbit (DDRD s') PD6 = true /\ Z.testbit (SREG s') SREG_I = true /\
  CLKPR s' = CPU_8MHz.
Proof.
  cbn zeta.
  destruct (run_registers evs (main_setup s))
    as (H1 & H2 & H3 & H4 & H5 & _ & H7 & H8).
  unfold waveform_mode, clock_select.
  rewrite H1, H2, H3, H4, H5, H7, H8.
  unfold main_setup. unfold_program. rewrite Ha, Hb, Hm.
  rewrite !store8_testbit_low by (unfold PD6, SREG_I; lia).
  rewrite !Z.lor_spec.
  rewrite (bit_testbit PD6), (bit_testbit SREG_I) by (unfold PD6, SREG_I; lia).
  rewrite !Z.eqb_refl, !orb_true_r.
  repeat split; reflexivity.
Qed.

Lemma program_configuration_stable_witness :
  waveform_mode (run (tick_poll 1000) (main_setup power_on)) = 4.
Proof.
  apply (program_configuration_stable power_on (tick_poll 1000));
    reflexivity.
Defined.

(** ** Blinking from any phase *)

(** X11.  With nothing but the LED bit in PORTD and the counter anywhere in
    0..998, along every schedule in which each handler run is followed
    by a loop pass the counter ends at (counter + runs) mod 999 and the
    pin has changed exactly (counter + runs) / 999 times, whether it
    started low or high. *)
Theorem blink_from_any_phase
  (s : state) (evs : list event)
  (Hled : led_only s) (Hc : 0 <= count_ms s <= 998)
  (Hsched : interleaved evs = true) :
  count_ms (run evs s) = (count_ms s + ticks evs) mod 999 /\
  toggles evs s = (count_ms s + ticks evs) / 999 /\
  pin (run evs s) = xorb (pin s) (Z.odd ((count_ms s + ticks evs) / 999)).
Proof.
  destruct (interleaved_run evs Hsched s Hled Hc) as (H1 & H2 & H3).
  split; [exact H1|]. split; [exact H3|].
  unfold pin. rewrite H2.
  destruct (Z.odd ((count_ms s + ticks evs) / 999));
    destruct Hled as [Hp|Hp]; rewrite Hp; reflexivity.
Qed.

Lemma blink_from_any_phase_witness :
  toggles (tick_poll 1500) (mkState 1 128 64 64 0 10 2 1000 17 500) = 2.
Proof.
  apply (blink_from_any_phase
           (mkState 1 128 64 64 0 10 2 1000 17 500) (tick_poll 1500)).
  - right. reflexivity.
  - cbn. lia.
  - vm_compute. reflexivity.
Defined.

(** ** The handler between the two [if]s: lost toggles *)

Lemma run_points_app (ps qs : list point) :
  forall s, run_points (ps ++ qs) s = run_points qs (run_points ps s).
Proof.
  induction ps as [|p rest IH]; intros s; cbn [app run_points].
  - reflexivity.
  - apply IH.
Qed.

Lemma point_toggles_app (ps qs : list point) :
  forall s, point_toggles (ps ++ qs) s
            = point_toggles ps s + point_toggles qs (run_points ps s).
Proof.
  induction ps as [|p rest IH]; intros s; cbn [app run_points point_toggles].
  - reflexivity.
  - rewrite IH. lia.
Qed.

(** The atomic schedules are the statement-level ones in which no
    handler run falls inside a pass. *)
Lemma run_points_of (evs : list event) :
  forall s, run_points (points_of evs) s = run evs s.
Proof.
  induction evs as [|[|] rest IH]; intros s; cbn [points_of run_points run].
  - reflexivity.
  - apply IH.
  - apply IH.
Qed.

Lemma program_order_points_of (evs : list event) :
  program_order true (points_of evs) = true.
Proof.
  induction evs as [|[|] rest IH]; cbn [points_of program_order andb negb];
    auto.
Qed.

(** A late cycle started with counter and PORTD at zero ends in the
    very state it started in. *)
Lemma late_cycle_fixed (s : state) :
  count_ms s = 0 -> PORTD s = 0 ->
  run_points late_cycle s = s /\ point_toggles late_cycle s = 0.
Proof.
  destruct s as [clkpr sreg ddrd portd tccr1a tccr1b timsk1 ocr1a tcnt1 cnt].
  cbn [count_ms PORTD]. intros -> ->.
  vm_compute. split; reflexivity.
Qed.

Lemma late_cycles_fixed (n : nat) (s : state) :
  count_ms s = 0 -> PORTD s = 0 ->
  run_points (late_cycles n) s = s /\ point_toggles (late_cycles n) s = 0.
Proof.
  intros Hc Hp. induction n as [|n [IHr IHt]]; cbn [late_cycles].
  - split; reflexivity.
  - destruct (late_cycle_fixed s Hc Hp) as [Hr Ht].
    rewrite run_points_app, point_toggles_app, Hr, Ht, IHr, IHt.
    split; reflexivity.
Qed.

(** C1.  The program from power-on, with 999 handler runs, one per loop
    pass, the 999th of them between the two [if]s of its pass.  The
    first [if] of that pass sees 998, the handler brings the counter to
    999, and the second [if] clears the already low pin and zeroes the
    counter: after the first cycle in which the counter reached 999
    the pin is low, not high, and with the same timing in every cycle
    it stays low for any number of cycles. *)
Theorem late_handler_run_keeps_pin_low :
  let s0 := main_setup power_on in
  initial s0 /\
  program_order true late_cycle = true /\
  handler_runs late_cycle = 999 /\
  count_ms (run_points (early_passes 998 ++ [FirstIf; Handler]) s0) = 999 /\
  pin (run_points late_cycle s0) = false /\
  count_ms (run_points late_cycle s0) = 0 /\
  point_toggles late_cycle s0 = 0 /\
  (forall n,
     pin (run_points (late_cycles n) s0) = false /\
     point_toggles (late_cycles n) s0 = 0).
Proof.
  cbn zeta.
  assert (Hinit : initial (main_setup power_on)) by (split; reflexivity).
  destruct Hinit as [Hc Hp].
  destruct (late_cycle_fixed _ Hc Hp) as [Hr Ht].
  split; [split; assumption|].
  split; [vm_compute; reflexivity|].
  split; [vm_compute; reflexivity|].
  split; [vm_compute; reflexivity|].
  rewrite Hr, Ht.
  split; [reflexivity|]. split; [reflexivity|]. split; [reflexivity|].
  intros n. destruct (late_cycles_fixed n _ Hc Hp) as [Hrn Htn].
  rewrite Hrn, Htn. split; reflexivity.
Qed.

(** C6.  The program from power-on after 998 handler runs, each seen by
    a pass: counter 998, pin low.  In the next pass the first [if] is
    not taken, the handler brings the counter to 999 before the second
    [if], and the second [if] zeroes it with the pin unchanged; the
    pass after that finds the counter at 0 and changes nothing.  The
    counter has reached 999 and been reset without any change of the
    pin. *)
Theorem counter_reaches_999_between_ifs :
  let s := run_points (early_passes 998) (main_setup power_on) in
  count_ms s = 998 /\ pin s = false /\
  first_taken s = false /\
  count_ms (ISR (first_if s)) = 999 /\
  pin (second_if (ISR (first_if s))) = pin s /\
  count_ms (second_if (ISR (first_if s))) = 0 /\
  point_toggles late_pass s = 0 /\
  loop_body (second_if (ISR (first_if s))) = second_if (ISR (first_if s)).
Proof.
  cbn zeta.
  do 7 (split; [vm_compute; reflexivity|]).
  vm_compute. reflexivity.
Qed.
